(** * d2: namespace store clients and the filter builder

    A shallow embedding of [src/datastore/DataStore.js] and
    [src/datastore/BaseStore.js], and of the [Filter] builder exercised by
    [test/unit/model/Filter.spec.js].

    JavaScript values are an inductive type, a function body ends in a
    [completion] (it returns or it throws), a promise is described by the way
    it settles, and the transport is an oracle that answers each request while
    the requests made are recorded in the world. *)

From stdpp Require Import base option list strings.
From Stdlib Require Import ZArith.

Open Scope Z_scope.

(** ** JavaScript values, completions and promises *)

Module JS.

(** The values the store clients inspect.  Numbers are integers: the only
    number the code looks at is an HTTP status code. *)
#[warnings="-register-all"]
Inductive value : Type :=
| VUndefined
| VNull
| VBool (b : bool)
| VNum (n : Z)
| VStr (s : string)
| VArray (elems : list value)
| VObject (props : list (string * value))
| VError (message : string)
| VTypeError.

(** How a function body ends: [return a] or [throw e]. *)
Inductive completion (A : Type) : Type :=
| Return (a : A)
| Throw (e : value).
Arguments Return {A} a.
Arguments Throw {A} e.

Definition bind_completion {A B} (c : completion A) (k : A -> completion B)
  : completion B :=
  match c with
  | Return a => k a
  | Throw e => Throw e
  end.

(** A promise, by the way it settles (or never does). *)
Inductive promise (A : Type) : Type :=
| Fulfilled (a : A)
| Rejected (e : value)
| Pending.
Arguments Fulfilled {A} a.
Arguments Rejected {A} e.
Arguments Pending {A}.

(** [ToBoolean]. *)
Definition truthy (v : value) : bool :=
  match v with
  | VUndefined | VNull => false
  | VBool b => b
  | VNum n => negb (n =? 0)
  | VStr s => negb (String.eqb s EmptyString)
  | VArray _ | VObject _ | VError _ | VTypeError => true
  end.

(** [isArray] of [lib/check], that is [Array.isArray]. *)
Definition isArray (v : value) : bool :=
  match v with
  | VArray _ => true
  | _ => false
  end.

(** [a && b] yields [a] when [a] is falsy and [b] otherwise. *)
Definition and_then (a b : value) : value := if truthy a then b else a.

Fixpoint lookup_prop (name : string) (props : list (string * value)) : value :=
  match props with
  | [] => VUndefined
  | (k, v) :: rest => if String.eqb k name then v else lookup_prop name rest
  end.

(** [v.name]: reading a property of [undefined] or [null] throws a
    [TypeError]; a property that is not there reads as [undefined]. *)
Definition get_prop (v : value) (name : string) : completion value :=
  match v with
  | VUndefined | VNull => Throw VTypeError
  | VObject props => Return (lookup_prop name props)
  | VError message =>
      Return (if String.eqb name "message" then VStr message else VUndefined)
  | VArray elems =>
      Return (if String.eqb name "length"
              then VNum (Z.of_nat (length elems)) else VUndefined)
  | VStr s =>
      Return (if String.eqb name "length"
              then VNum (Z.of_nat (String.length s)) else VUndefined)
  | VBool _ | VNum _ | VTypeError => Return VUndefined
  end.

(** [v === n] for a number literal [n]. *)
Definition strict_equals_num (v : value) (n : Z) : bool :=
  match v with
  | VNum m => m =? n
  | _ => false
  end.

(** A parameter with a default takes it when the argument is [undefined]. *)
Definition default_param (arg dflt : value) : value :=
  match arg with
  | VUndefined => dflt
  | _ => arg
  end.

(** [new Promise((resolve) => { resolve(a); })] where building [a] may throw. *)
Definition new_Promise {A} (executor : completion A) : promise A :=
  match executor with
  | Return a => Fulfilled a
  | Throw e => Rejected e
  end.

(** [p.then(onFulfilled)]. *)
Definition then_ {A B} (p : promise A) (onFulfilled : A -> completion B)
  : promise B :=
  match p with
  | Fulfilled a => new_Promise (onFulfilled a)
  | Rejected e => Rejected e
  | Pending => Pending
  end.

(** [p.catch(onRejected)]. *)
Definition catch_ {A} (p : promise A) (onRejected : value -> completion A)
  : promise A :=
  match p with
  | Fulfilled a => Fulfilled a
  | Rejected e => new_Promise (onRejected e)
  | Pending => Pending
  end.

Definition rejects {A} (p : promise A) : Prop :=
  match p with
  | Rejected _ => True
  | _ => False
  end.

End JS.

Import JS.

(** ** The transport ([Api]) and the world *)

Inductive request : Type :=
| GET (path : string)
| DELETE (path : string).

(** The transport is a collaborator: what it answers may depend on the
    requests it has seen so far. *)
Record Api : Type := { respond : list request -> request -> promise value }.

(** Modelled from the spec: [DataStoreNamespace] is not part of the sources;
    the accessor is the opaque result of its constructor, called with a name
    and optionally a key list.  [keys = None] is [new DataStoreNamespace(ns)]
    (keys unknown), [keys = Some r] is [new DataStoreNamespace(ns, r)]
    (keys known). *)
Record DataStoreNamespace : Type :=
  new_DataStoreNamespace { namespace : string; keys : option value }.

(** A [DataStore] object; [oid] is its identity (its allocation number). *)
Record DataStore : Type :=
  mkDataStore { oid : nat; endPoint : string; api : Api }.

Record BaseStore : Type :=
  mkBaseStore { base_oid : nat; base_endPoint : string; base_api : Api }.

(** The world: the requests sent so far, the objects allocated so far, and
    the slot [DataStore.getDataStore.dataStore]. *)
Record world : Type :=
  mkWorld { sent : list request; allocated : nat; slot : option DataStore }.

Definition M (A : Type) : Type := world -> A * world.

Definition ret {A} (a : A) : M A := fun w => (a, w).

Definition bind {A B} (m : M A) (k : A -> M B) : M B :=
  fun w => let (a, w') := m w in k a w'.

Notation "'let*' x ':=' m 'in' k" := (bind m (fun x => k))
  (at level 10, x name, m at level 100, k at level 200).

(** [api.get(path)] and [api.delete(path)]. *)
Definition call (a : Api) (r : request) : M (promise value) :=
  fun w => (respond a (sent w) r,
            mkWorld (sent w ++ [r]) (allocated w) (slot w)).

Definition api_get (a : Api) (path : string) : M (promise value) :=
  call a (GET path).

Definition api_delete (a : Api) (path : string) : M (promise value) :=
  call a (DELETE path).

(** [[a, b].join('/')] on strings. *)
Definition join (sep : string) (parts : list string) : string :=
  String.concat sep parts.

(** ** [DataStore] *)

Module DataStoreM.

Definition no_keys_message : string :=
  "The requested namespace has no keys or does not exist.".

Definition no_namespaces_message : string := "No namespaces exist.".

(** [new DataStore(api)]: allocates an object with [endPoint = 'dataStore']. *)
Definition new_DataStore (a : Api) : M DataStore :=
  fun w => (mkDataStore (allocated w) "dataStore" a,
            mkWorld (sent w) (S (allocated w)) (slot w)).

(** The [then] handler of [get]. *)
Definition get_onFulfilled (namespace : string) (response : value)
  : completion DataStoreNamespace :=
  if truthy (and_then response (VBool (isArray response)))
  then Return (new_DataStoreNamespace namespace (Some response))
  else Throw (VError no_keys_message).

(** The [catch] handler of [get]. *)
Definition get_onRejected (namespace : string) (e : value)
  : completion DataStoreNamespace :=
  bind_completion (get_prop e "httpStatusCode") (fun code =>
    if strict_equals_num code 404
    then Return (new_DataStoreNamespace namespace None)
    else Throw e).

(** [get(namespace, autoLoad = true)]. *)
Definition get (this : DataStore) (namespace : string) (autoLoad : value)
  : M (promise DataStoreNamespace) :=
  let autoLoad := default_param autoLoad (VBool true) in
  if negb (truthy autoLoad)
  then ret (new_Promise (Return (new_DataStoreNamespace namespace None)))
  else
    let* p := api_get (api this) (join "/" [endPoint this; namespace]) in
    ret (catch_ (then_ p (get_onFulfilled namespace))
                (get_onRejected namespace)).

(** The [then] handler of [getAll]. *)
Definition getAll_onFulfilled (response : value) : completion value :=
  if truthy (and_then response (VBool (isArray response)))
  then Return response
  else Throw (VError no_namespaces_message).

(** [getAll()]. *)
Definition getAll (this : DataStore) : M (promise value) :=
  let* p := api_get (api this) (endPoint this) in
  ret (then_ p getAll_onFulfilled).

(** [delete(namespace)]. *)
Definition delete (this : DataStore) (namespace : string)
  : M (promise value) :=
  api_delete (api this) (join "/" [endPoint this; namespace]).

(** [static getDataStore()]; [default_api] stands for [Api.getApi()], the
    default of the constructor's parameter. *)
Definition getDataStore (default_api : Api) : M DataStore :=
  fun w =>
    match slot w with
    | Some d => (d, w)
    | None =>
        let (d, w') := new_DataStore default_api w in
        (d, mkWorld (sent w') (allocated w') (Some d))
    end.

End DataStoreM.

(** ** [BaseStore] *)

Module BaseStoreM.

Definition not_implemented_message : string :=
  "Must be implemented by subclass.".

Definition no_namespaces_message : string := "No namespaces exist.".

(** [new BaseStore(api, endPoint = 'dataStore')]. *)
Definition new_BaseStore (a : Api) (endPoint : option string) : M BaseStore :=
  fun w =>
    (mkBaseStore (allocated w) (default "dataStore" endPoint) a,
     mkWorld (sent w) (S (allocated w)) (slot w)).

(** [get(namespace, autoLoad = true)]: the body only throws. *)
Definition get (this : BaseStore) (namespace autoLoad : value)
  : M (completion (promise DataStoreNamespace)) :=
  ret (Throw (VError not_implemented_message)).

(** The [then] handler of [getAll]. *)
Definition getAll_onFulfilled (response : value) : completion value :=
  if truthy (and_then response (VBool (isArray response)))
  then Return response
  else Throw (VError no_namespaces_message).

(** [getAll()]. *)
Definition getAll (this : BaseStore) : M (promise value) :=
  let* p := api_get (base_api this) (base_endPoint this) in
  ret (then_ p getAll_onFulfilled).

(** [delete(namespace)]. *)
Definition delete (this : BaseStore) (namespace : string)
  : M (promise value) :=
  api_delete (base_api this) (join "/" [base_endPoint this; namespace]).

End BaseStoreM.

(** ** Programs over the [DataStore] class

    Everything the class offers, as one operation each; a client is a list
    of them. *)

Inductive op : Type :=
| Op_getDataStore
| Op_new (a : Api)
| Op_get (this : DataStore) (namespace : string) (autoLoad : value)
| Op_getAll (this : DataStore)
| Op_delete (this : DataStore) (namespace : string).

Definition step (default_api : Api) (o : op) (w : world) : world :=
  match o with
  | Op_getDataStore => snd (DataStoreM.getDataStore default_api w)
  | Op_new a => snd (DataStoreM.new_DataStore a w)
  | Op_get this ns autoLoad => snd (DataStoreM.get this ns autoLoad w)
  | Op_getAll this => snd (DataStoreM.getAll this w)
  | Op_delete this ns => snd (DataStoreM.delete this ns w)
  end.

Definition run (default_api : Api) (ops : list op) (w : world) : world :=
  fold_left (fun w o => step default_api o w) ops w.

(** Concrete transports and worlds used to exercise the definitions. *)
Definition api_answering (p : promise value) : Api :=
  {| respond := fun _ _ => p |}.

Definition store_answering (p : promise value) : DataStore :=
  mkDataStore 0 "dataStore" (api_answering p).

Definition base_store_answering (p : promise value) : BaseStore :=
  mkBaseStore 0 "dataStore" (api_answering p).

Definition world0 : world := mkWorld [] 0 None.

Definition not_found : value :=
  VObject [("httpStatusCode", VNum 404); ("status", VStr "ERROR")].

Definition server_error : value :=
  VObject [("httpStatusCode", VNum 500); ("status", VStr "ERROR")].

(** A transport that knows the namespace only after something was written. *)
Definition api_after_write : Api :=
  {| respond := fun seen _ =>
       match seen with
       | [] => Rejected not_found
       | _ => Fulfilled (VArray [])
       end |}.

(** The path [get] reads. *)
Definition namespace_request (this : DataStore) (ns : string) : request :=
  GET (join "/" [endPoint this; ns]).

(** The read fails with a condition whose [httpStatusCode] is not 404. *)
Definition fails_other_than_404 (p : promise value) : Prop :=
  exists e, p = Rejected e /\ get_prop e "httpStatusCode" <> Return (VNum 404).

(** ** [Filter] and its collection

    [src/model/Filter.js] and [src/model/Filters.js] are not among the
    sources; only the unit test of [Filter] is.  Objects live in a heap and
    are named by their index, so that a collection can hold the filter
    itself. *)

Module FilterM.

Section WithReturn.

(** What the collection's return-value hook produces. *)
Context {R : Type}.

(** Modelled from the spec: the failures of the absent [Filter.js], by the
    spec's names; [TypeError] is a call on an object that is not there. *)
Inductive error : Type :=
| ValidationError (message : string)
| IllegalStateError
| TypeError.

(** Modelled from the spec: the [Filter] object of [src/model/Filter.js]
    (absent): bound to one collection, [propertyName] defaults to ["name"],
    [comparator] to ["like"], [filterValue] is unset until a comparator method
    has run. *)
Record Filter : Type :=
  mkFilter { filters : nat;
             propertyName : string;
             comparator : string;
             filterValue : option string }.

(** Modelled from the spec: the FilterCollection of [src/model/Filters.js]
    (absent): the committed filters in insertion order and the value its
    return-value hook yields; [add_calls] and [getReturn_calls] record the
    calls made on it. *)
Record Filters : Type :=
  mkFilters { members : list nat;
              add_calls : list nat;
              getReturn_calls : nat;
              return_value : R }.

Record heap : Type :=
  mkHeap { filter_objs : list Filter; filters_objs : list Filters }.

(** A method runs on the heap and returns or throws; what it changed before
    throwing stays changed. *)
Definition F (A : Type) : Type := heap -> (error + A) * heap.

Definition pure {A} (a : A) : F A := fun h => (inr a, h).

Definition throw {A} (e : error) : F A := fun h => (inl e, h).

Definition and_next {A B} (m : F A) (k : A -> F B) : F B :=
  fun h =>
    match m h with
    | (inr a, h') => k a h'
    | (inl e, h') => (inl e, h')
    end.

Notation "'do' x '<-' m ';' k" := (and_next m (fun x => k))
  (at level 10, x name, m at level 100, k at level 200).

Definition read_filter (self : nat) : F Filter :=
  fun h =>
    match filter_objs h !! self with
    | Some f => (inr f, h)
    | None => (inl TypeError, h)
    end.

Definition write_filter (self : nat) (f : Filter) : F unit :=
  fun h => (inr tt, mkHeap (<[self := f]> (filter_objs h)) (filters_objs h)).

Definition read_filters (c : nat) : F Filters :=
  fun h =>
    match filters_objs h !! c with
    | Some fs => (inr fs, h)
    | None => (inl TypeError, h)
    end.

Definition write_filters (c : nat) (fs : Filters) : F unit :=
  fun h => (inr tt, mkHeap (filter_objs h) (<[c := fs]> (filters_objs h))).

(** Modelled from the spec: the argument check shared by [on] and the
    comparator methods of the absent [Filter.js]: an empty or undefined
    ([None]) argument fails with a ValidationError saying what should be
    provided. *)
Definition checkProvided (arg : option string) (what : string) : F string :=
  match arg with
  | Some s =>
      if String.eqb s EmptyString
      then throw (ValidationError (what +:+ " should be provided"))
      else pure s
  | None => throw (ValidationError (what +:+ " should be provided"))
  end.

(** Modelled from the spec: [new Filters()] of the absent [Filters.js], an
    empty collection whose hook yields [r]. *)
Definition new_Filters (r : R) : F nat :=
  fun h => (inr (length (filters_objs h)),
            mkHeap (filter_objs h) (filters_objs h ++ [mkFilters [] [] 0 r])).

(** Modelled from the spec: [new Filter(filters)] of the absent [Filter.js]. *)
Definition new_Filter (c : nat) : F nat :=
  fun h => (inr (length (filter_objs h)),
            mkHeap (filter_objs h ++ [mkFilter c "name" "like" None])
                   (filters_objs h)).

(** Modelled from the spec: [add(filter)] of the absent [Filters.js]:
    inserts the filter by identity, keeping insertion order. *)
Definition add (c : nat) (filter : nat) : F unit :=
  do fs <- read_filters c;
  write_filters c
    (mkFilters (if bool_decide (filter ∈ members fs)
                then members fs else members fs ++ [filter])
               (add_calls fs ++ [filter])
               (getReturn_calls fs)
               (return_value fs)).

(** Modelled from the spec: [getReturn()] of the absent [Filters.js]. *)
Definition getReturn (c : nat) : F R :=
  do fs <- read_filters c;
  do _ <- write_filters c
    (mkFilters (members fs) (add_calls fs) (S (getReturn_calls fs))
               (return_value fs));
  pure (return_value fs).

(** Modelled from the spec: [on(propertyName)] of the absent [Filter.js]. *)
Definition on (self : nat) (name : option string) : F nat :=
  do p <- checkProvided name "Property name to filter on";
  do f <- read_filter self;
  do _ <- write_filter self
    (mkFilter (filters f) p (comparator f) (filterValue f));
  pure self.

(** Modelled from the spec: a comparator method of the absent [Filter.js],
    for the comparator token [token]. *)
Definition comparator_method (token : string) (self : nat)
    (value : option string) : F R :=
  do v <- checkProvided value "filterValue";
  do f <- read_filter self;
  do _ <- write_filter self
    (mkFilter (filters f) (propertyName f) token (Some v));
  do _ <- add (filters f) self;
  getReturn (filters f).

(** Modelled from the spec: the comparator methods the spec names, of the
    absent [Filter.js]. *)
Definition like : nat -> option string -> F R := comparator_method "like".
Definition ilike : nat -> option string -> F R := comparator_method "ilike".
Definition equals : nat -> option string -> F R := comparator_method "eq".

(** Modelled from the spec: [getQueryParamFormat()] of the absent
    [Filter.js]; before a comparator method has run it fails fast. *)
Definition getQueryParamFormat (self : nat) : F string :=
  do f <- read_filter self;
  match filterValue f with
  | Some v => pure (propertyName f +:+ ":" +:+ comparator f +:+ ":" +:+ v)
  | None => throw IllegalStateError
  end.

(** The scenario of the unit test: a fresh collection, a fresh filter on
    it, then [filter.on('code').equals('Partner_343')] and
    [filter.getQueryParamFormat()]. *)
Definition code_equals_partner (r : R) : F string :=
  do c <- new_Filters r;
  do filter <- new_Filter c;
  do chained <- on filter (Some "code");
  do _ <- equals chained (Some "Partner_343");
  getQueryParamFormat filter.

(** The state the unit test starts from: one collection whose hook yields
    [r], and one fresh filter bound to it. *)
Definition heap_of_test (r : R) : heap :=
  mkHeap [mkFilter 0 "name" "like" None] [mkFilters [] [] 0 r].

End WithReturn.

Arguments Filters : clear implicits.
Arguments heap : clear implicits.
Arguments F : clear implicits.

End FilterM.

(** ** What a program of operations asks of the transport *)

(** Whether [get] reads before it resolves: the argument after the default
    has been applied, as a boolean. *)
Definition loads (autoLoad : value) : bool :=
  truthy (default_param autoLoad (VBool true)).


(** The path [delete] targets. *)
Definition delete_request (this : DataStore) (ns : string) : request :=
  DELETE (join "/" [endPoint this; ns]).

(** The requests an operation sends. *)
Definition requests_of (o : op) : list request :=
  match o with
  | Op_getDataStore | Op_new _ => []
  | Op_get this ns autoLoad =>
      if loads autoLoad then [namespace_request this ns] else []
  | Op_getAll this => [GET (endPoint this)]
  | Op_delete this ns => [delete_request this ns]
  end.

Definition is_new (o : op) : bool :=
  match o with
  | Op_new _ => true
  | _ => false
  end.

Definition is_getDataStore (o : op) : bool :=
  match o with
  | Op_getDataStore => true
  | _ => false
  end.

(** The slot, when filled, holds an object that [getDataStore] made: its end
    point and transport are the defaults and it has been allocated. *)
Definition singleton_ok (default_api : Api) (w : world) : Prop :=
  match slot w with
  | None => True
  | Some d =>
      endPoint d = "dataStore" /\ api d = default_api
      /\ (oid d < allocated w)%nat
  end.

(** * Properties of the store clients *)

Section StoreFacts.

Import DataStoreM.

(** [response && isArray(response)] is truthy exactly for arrays. *)
Lemma truthy_and_isArray (v : value) :
  truthy (and_then v (VBool (isArray v))) = isArray v.
Proof.
  destruct v as [| |b|n|s|l|o|m|]; unfold and_then; simpl; try reflexivity.
  - destruct b; reflexivity.
  - destruct (n =? 0) eqn:E; simpl; [rewrite E|]; reflexivity.
  - destruct (String.eqb s EmptyString) eqn:E; simpl; [rewrite E|]; reflexivity.
Qed.

Lemma strict_equals_num_spec (v : value) (n : Z) :
  strict_equals_num v n = true <-> v = VNum n.
Proof.
  destruct v; simpl; split; try discriminate; try congruence.
  - intros H. apply Z.eqb_eq in H. congruence.
  - intros H. inversion H. apply Z.eqb_refl.
Qed.

(** With [autoLoad = true], [get] sends exactly one read and chains the two
    handlers on its answer. *)
Lemma get_autoLoad_true (this : DataStore) (ns : string) (w : world) :
  get this ns (VBool true) w =
  (catch_ (then_ (respond (api this) (sent w) (namespace_request this ns))
                 (get_onFulfilled ns))
          (get_onRejected ns),
   mkWorld (sent w ++ [namespace_request this ns]) (allocated w) (slot w)).
Proof. reflexivity. Qed.

(** Leaving [autoLoad] out is the same as passing [true]. *)
Lemma get_autoLoad_default (this : DataStore) (ns : string) (w : world) :
  get this ns VUndefined w = get this ns (VBool true) w.
Proof. reflexivity. Qed.

Lemma get_onFulfilled_array (ns : string) (v : value) :
  isArray v = true ->
  get_onFulfilled ns v = Return (new_DataStoreNamespace ns (Some v)).
Proof.
  intros H. unfold get_onFulfilled. rewrite truthy_and_isArray, H. reflexivity.
Qed.

Lemma get_onFulfilled_other (ns : string) (v : value) :
  isArray v = false ->
  get_onFulfilled ns v = Throw (VError no_keys_message).
Proof.
  intros H. unfold get_onFulfilled. rewrite truthy_and_isArray, H. reflexivity.
Qed.

Lemma get_onRejected_404 (ns : string) (e : value) :
  get_prop e "httpStatusCode" = Return (VNum 404) ->
  get_onRejected ns e = Return (new_DataStoreNamespace ns None).
Proof. intros H. unfold get_onRejected. rewrite H. reflexivity. Qed.

Lemma get_onRejected_other (ns : string) (e code : value) :
  get_prop e "httpStatusCode" = Return code ->
  code <> VNum 404 ->
  get_onRejected ns e = Throw e.
Proof.
  intros H Hne. unfold get_onRejected. rewrite H. simpl.
  destruct (strict_equals_num code 404) eqn:E; [|reflexivity].
  apply strict_equals_num_spec in E. contradiction.
Qed.

(** Whatever the reason, the [catch] handler of [get] throws unless the
    reason carries [httpStatusCode === 404]. *)
Lemma get_onRejected_throws (ns : string) (e : value) :
  get_prop e "httpStatusCode" <> Return (VNum 404) ->
  exists t, get_onRejected ns e = Throw t.
Proof.
  intros H. unfold get_onRejected.
  destruct (get_prop e "httpStatusCode") as [code|t] eqn:E; simpl.
  - destruct (strict_equals_num code 404) eqn:E4; [|eauto].
    apply strict_equals_num_spec in E4. congruence.
  - eauto.
Qed.

(** The error thrown by the [then] handler has no [httpStatusCode], so the
    [catch] handler throws it again. *)
Lemma get_onRejected_no_keys (ns : string) :
  get_onRejected ns (VError no_keys_message) = Throw (VError no_keys_message).
Proof. reflexivity. Qed.

End StoreFacts.

Section DataStoreClaims.

Import DataStoreM.

(** C1, as the claim words it, fails: when the read is fulfilled with a value
    that is not a sequence, [get(ns, true)] rejects although the transport
    read did not fail. *)
Lemma get_rejects_without_read_failure :
  ~ (rejects (fst (get (store_answering (Fulfilled (VObject []))) "ns"
                       (VBool true) world0))
     <-> fails_other_than_404
           (respond (api (store_answering (Fulfilled (VObject []))))
                    (sent world0)
                    (namespace_request
                       (store_answering (Fulfilled (VObject []))) "ns"))).
Proof.
  intros [Hrej _].
  destruct (Hrej I) as (e & He & _).
  discriminate He.
Qed.

(** C1 (amended): [get(ns, true)] rejects if and only if the read fails with
    a condition whose [httpStatusCode] is not 404, or the read is fulfilled
    with a response that is not a sequence.  A rejection carrying
    [httpStatusCode === 404] is recovered into a resolved promise holding the
    keys-unknown accessor for [ns]; a rejection with an error value whose
    [httpStatusCode] is anything else reaches the caller with the same
    error. *)
Theorem get_rejects_iff (this : DataStore) (ns : string) (w : world) :
  let p := respond (api this) (sent w) (namespace_request this ns) in
  let r := fst (get this ns (VBool true) w) in
  (rejects r <->
     fails_other_than_404 p \/ exists v, p = Fulfilled v /\ isArray v = false)
  /\ (forall e, p = Rejected e ->
        get_prop e "httpStatusCode" = Return (VNum 404) ->
        r = Fulfilled (new_DataStoreNamespace ns None))
  /\ (forall e code, p = Rejected e ->
        get_prop e "httpStatusCode" = Return code ->
        code <> VNum 404 ->
        r = Rejected e).
Proof.
  intros p r. subst r. rewrite get_autoLoad_true. fold p. simpl fst.
  split; [|split].
  - destruct p as [v|e|] eqn:Hp; simpl.
    + destruct (isArray v) eqn:Ha.
      * rewrite get_onFulfilled_array by assumption. simpl. split; [tauto|].
        intros [(e & He & _)|(v' & Hv & Hn)]; [discriminate|].
        inversion Hv; subst. congruence.
      * rewrite get_onFulfilled_other by assumption. simpl.
        split; [|exact (fun _ => I)]. intros _. right. eauto.
    + destruct (get_onRejected ns e) as [a|t] eqn:Hr; simpl.
      * split; [tauto|].
        intros [(e' & He & Hne)|(v & Hv & _)]; [|discriminate].
        inversion He; subst e'.
        destruct (get_onRejected_throws ns e Hne) as [t Ht]. congruence.
      * split; [|exact (fun _ => I)]. intros _. left. exists e. split; [reflexivity|].
        intros H404. rewrite (get_onRejected_404 ns e H404) in Hr. discriminate.
    + split; [tauto|].
      intros [(e & He & _)|(v & Hv & _)]; discriminate.
  - intros e He H404. rewrite He. simpl.
    rewrite (get_onRejected_404 ns e H404). reflexivity.
  - intros e code He Hc Hne. rewrite He. simpl.
    rewrite (get_onRejected_other ns e code Hc Hne). reflexivity.
Qed.

Lemma get_rejects_iff_witness :
  fst (get (store_answering (Rejected not_found)) "ns" (VBool true) world0)
    = Fulfilled (new_DataStoreNamespace "ns" None)
  /\ fst (get (store_answering (Rejected server_error)) "ns" (VBool true) world0)
    = Rejected server_error
  /\ rejects (fst (get (store_answering (Fulfilled VNull)) "ns" (VBool true)
                       world0)).
Proof.
  split; [|split].
  - apply (proj1 (proj2 (get_rejects_iff
                           (store_answering (Rejected not_found)) "ns" world0))
             not_found); reflexivity.
  - apply (proj2 (proj2 (get_rejects_iff
                           (store_answering (Rejected server_error)) "ns" world0))
             server_error (VNum 500)); [reflexivity | reflexivity | discriminate].
  - apply (proj1 (get_rejects_iff
                    (store_answering (Fulfilled VNull)) "ns" world0)).
    right. exists VNull. split; reflexivity.
Defined.

(** A rejection whose reason is [undefined] makes the [catch] handler's
    property read throw: [get] still rejects, with the [TypeError]. *)
Example get_rejected_with_undefined :
  fst (get (store_answering (Rejected VUndefined)) "ns" (VBool true) world0)
  = Rejected VTypeError.
Proof. reflexivity. Qed.

(** C2: when the read of [get(ns, true)] is fulfilled with a sequence, the
    promise resolves with the keys-known accessor built from [ns] and that
    sequence; when it is fulfilled with anything that is not a sequence (a
    present value in particular), the promise rejects with the error whose
    message is "The requested namespace has no keys or does not exist.". *)
Theorem get_fulfilled (this : DataStore) (ns : string) (w : world)
    (response : value) :
  respond (api this) (sent w) (namespace_request this ns) = Fulfilled response ->
  (isArray response = true ->
     fst (get this ns (VBool true) w)
     = Fulfilled (new_DataStoreNamespace ns (Some response)))
  /\ (isArray response = false ->
     fst (get this ns (VBool true) w)
     = Rejected
         (VError "The requested namespace has no keys or does not exist.")).
Proof.
  intros Hp. rewrite get_autoLoad_true, Hp. simpl. split; intros Ha.
  - rewrite get_onFulfilled_array by assumption. reflexivity.
  - rewrite get_onFulfilled_other by assumption. reflexivity.
Qed.

Lemma get_fulfilled_witness :
  fst (get (store_answering (Fulfilled (VArray [VStr "k1"; VStr "k2"]))) "ns"
           (VBool true) world0)
    = Fulfilled (new_DataStoreNamespace "ns"
                   (Some (VArray [VStr "k1"; VStr "k2"])))
  /\ fst (get (store_answering (Fulfilled (VObject [("a", VNum 1)]))) "ns"
              (VBool true) world0)
    = Rejected
        (VError "The requested namespace has no keys or does not exist.").
Proof.
  split.
  - apply (proj1 (get_fulfilled
                    (store_answering (Fulfilled (VArray [VStr "k1"; VStr "k2"])))
                    "ns" world0 (VArray [VStr "k1"; VStr "k2"]) eq_refl)).
    reflexivity.
  - apply (proj2 (get_fulfilled
                    (store_answering (Fulfilled (VObject [("a", VNum 1)])))
                    "ns" world0 (VObject [("a", VNum 1)]) eq_refl)).
    reflexivity.
Defined.

End DataStoreClaims.

Section GetAllClaims.

Lemma getAll_onFulfilled_array (v : value) :
  isArray v = true -> DataStoreM.getAll_onFulfilled v = Return v.
Proof.
  intros H. unfold DataStoreM.getAll_onFulfilled.
  rewrite truthy_and_isArray, H. reflexivity.
Qed.

Lemma getAll_onFulfilled_other (v : value) :
  isArray v = false ->
  DataStoreM.getAll_onFulfilled v = Throw (VError "No namespaces exist.").
Proof.
  intros H. unfold DataStoreM.getAll_onFulfilled.
  rewrite truthy_and_isArray, H. reflexivity.
Qed.

(** The base store's handler is the same function. *)
Lemma base_getAll_onFulfilled_same (v : value) :
  BaseStoreM.getAll_onFulfilled v = DataStoreM.getAll_onFulfilled v.
Proof. reflexivity. Qed.

(** C3: [getAll()], of [DataStore] and of [BaseStore] alike, sends one read
    of the end point; it resolves with the response as it is when the
    response is a sequence, rejects with the error whose message is
    "No namespaces exist." for any other fulfilled response (an empty one
    included), and hands every failed read on as it is, a not-found one
    too. *)
Theorem getAll_outcomes (d : DataStore) (b : BaseStore) (w : world) :
  let pd := respond (api d) (sent w) (GET (endPoint d)) in
  let pb := respond (base_api b) (sent w) (GET (base_endPoint b)) in
  (forall v, pd = Fulfilled v -> isArray v = true ->
     fst (DataStoreM.getAll d w) = Fulfilled v)
  /\ (forall v, pd = Fulfilled v -> isArray v = false ->
     fst (DataStoreM.getAll d w) = Rejected (VError "No namespaces exist."))
  /\ (forall e, pd = Rejected e -> fst (DataStoreM.getAll d w) = Rejected e)
  /\ snd (DataStoreM.getAll d w)
     = mkWorld (sent w ++ [GET (endPoint d)]) (allocated w) (slot w)
  /\ (forall v, pb = Fulfilled v -> isArray v = true ->
     fst (BaseStoreM.getAll b w) = Fulfilled v)
  /\ (forall v, pb = Fulfilled v -> isArray v = false ->
     fst (BaseStoreM.getAll b w) = Rejected (VError "No namespaces exist."))
  /\ (forall e, pb = Rejected e -> fst (BaseStoreM.getAll b w) = Rejected e)
  /\ snd (BaseStoreM.getAll b w)
     = mkWorld (sent w ++ [GET (base_endPoint b)]) (allocated w) (slot w).
Proof.
  intros pd pb.
  assert (Hd : fst (DataStoreM.getAll d w)
               = then_ pd DataStoreM.getAll_onFulfilled) by reflexivity.
  assert (Hb : fst (BaseStoreM.getAll b w)
               = then_ pb DataStoreM.getAll_onFulfilled) by reflexivity.
  rewrite Hd, Hb.
  repeat split; try (intros v Hp Ha; rewrite Hp; simpl);
    try (intros e Hp; rewrite Hp; reflexivity).
  all: first [ rewrite getAll_onFulfilled_array by assumption
             | rewrite getAll_onFulfilled_other by assumption ];
    reflexivity.
Qed.

Lemma getAll_outcomes_witness :
  fst (DataStoreM.getAll
         (store_answering (Fulfilled (VArray [VStr "a"; VStr "b"]))) world0)
    = Fulfilled (VArray [VStr "a"; VStr "b"])
  /\ fst (DataStoreM.getAll (store_answering (Fulfilled VUndefined)) world0)
    = Rejected (VError "No namespaces exist.")
  /\ fst (DataStoreM.getAll (store_answering (Rejected not_found)) world0)
    = Rejected not_found
  /\ fst (BaseStoreM.getAll
            (base_store_answering (Fulfilled (VStr EmptyString))) world0)
    = Rejected (VError "No namespaces exist.")
  /\ fst (BaseStoreM.getAll (base_store_answering (Rejected not_found)) world0)
    = Rejected not_found.
Proof.
  pose proof (getAll_outcomes
                (store_answering (Fulfilled (VArray [VStr "a"; VStr "b"])))
                (base_store_answering (Fulfilled (VStr EmptyString))) world0)
    as (H1 & _ & _ & _ & _ & H6 & _).
  pose proof (getAll_outcomes
                (store_answering (Fulfilled VUndefined))
                (base_store_answering (Rejected not_found)) world0)
    as (_ & H2 & _ & _ & _ & _ & H7 & _).
  pose proof (getAll_outcomes
                (store_answering (Rejected not_found))
                (base_store_answering Pending) world0)
    as (_ & _ & H3 & _).
  split; [exact (H1 _ eq_refl eq_refl)|].
  split; [exact (H2 _ eq_refl eq_refl)|].
  split; [exact (H3 _ eq_refl)|].
  split; [exact (H6 _ eq_refl eq_refl)|].
  exact (H7 _ eq_refl).
Defined.

End GetAllClaims.

Section LifecycleClaims.

Import DataStoreM.

(** C6: [get(ns, false)] resolves with the keys-unknown accessor for [ns] and
    leaves the world as it was: no request is sent, and the promise is never
    a rejected one. *)
Theorem get_without_autoLoad (this : DataStore) (ns : string) (w : world) :
  get this ns (VBool false) w
  = (Fulfilled (new_DataStoreNamespace ns None), w)
  /\ sent (snd (get this ns (VBool false) w)) = sent w
  /\ ~ rejects (fst (get this ns (VBool false) w)).
Proof. repeat split. simpl. tauto. Qed.

(** C9: the base store's [get] throws the error "Must be implemented by
    subclass." for every pair of arguments, and the world stays as it was:
    no request is sent and nothing changes. *)
Theorem base_get_not_implemented (this : BaseStore) (namespace autoLoad : value)
    (w : world) :
  BaseStoreM.get this namespace autoLoad w
  = (Throw (VError "Must be implemented by subclass."), w).
Proof. reflexivity. Qed.

(** C10: when the read of [get(ns, true)] is fulfilled with the empty
    sequence, the promise resolves with the keys-known accessor built from
    [ns] and that empty sequence; this is neither a rejection nor the
    keys-unknown accessor that a not-found read is recovered into. *)
Theorem get_empty_sequence (this : DataStore) (ns : string) (w w404 : world)
    (e : value) :
  respond (api this) (sent w) (namespace_request this ns)
    = Fulfilled (VArray []) ->
  respond (api this) (sent w404) (namespace_request this ns) = Rejected e ->
  get_prop e "httpStatusCode" = Return (VNum 404) ->
  fst (get this ns (VBool true) w)
    = Fulfilled (new_DataStoreNamespace ns (Some (VArray [])))
  /\ ~ rejects (fst (get this ns (VBool true) w))
  /\ fst (get this ns (VBool true) w404)
    = Fulfilled (new_DataStoreNamespace ns None)
  /\ fst (get this ns (VBool true) w) <> fst (get this ns (VBool true) w404).
Proof.
  intros Hw He H404.
  assert (H1 : fst (get this ns (VBool true) w)
               = Fulfilled (new_DataStoreNamespace ns (Some (VArray [])))).
  { rewrite get_autoLoad_true, Hw. reflexivity. }
  assert (H2 : fst (get this ns (VBool true) w404)
               = Fulfilled (new_DataStoreNamespace ns None)).
  { rewrite get_autoLoad_true, He. simpl.
    rewrite (get_onRejected_404 ns e H404). reflexivity. }
  rewrite H1, H2. repeat split; try (simpl; tauto). discriminate.
Qed.

Lemma get_empty_sequence_witness :
  fst (get (mkDataStore 0 "dataStore" api_after_write) "ns" (VBool true)
           (mkWorld [DELETE "dataStore/ns/k"] 1 None))
    = Fulfilled (new_DataStoreNamespace "ns" (Some (VArray [])))
  /\ fst (get (mkDataStore 0 "dataStore" api_after_write) "ns" (VBool true)
              (mkWorld [DELETE "dataStore/ns/k"] 1 None))
     <> fst (get (mkDataStore 0 "dataStore" api_after_write) "ns" (VBool true)
                 world0).
Proof.
  pose proof (get_empty_sequence
                (mkDataStore 0 "dataStore" api_after_write) "ns"
                (mkWorld [DELETE "dataStore/ns/k"] 1 None) world0 not_found
                eq_refl eq_refl eq_refl) as (H1 & _ & _ & H4).
  split; assumption.
Defined.

End LifecycleClaims.

Section SingletonClaims.

Import DataStoreM.

Variable default_api : Api.

(** After a call the slot holds what the call returned. *)
Lemma getDataStore_fills_slot (w : world) :
  slot (snd (getDataStore default_api w))
  = Some (fst (getDataStore default_api w)).
Proof.
  unfold getDataStore. destruct (slot w) as [d|] eqn:Hs; simpl; [exact Hs|reflexivity].
Qed.

Lemma getDataStore_filled (w : world) (d : DataStore) :
  slot w = Some d -> getDataStore default_api w = (d, w).
Proof. intros Hs. unfold getDataStore. rewrite Hs. reflexivity. Qed.

(** No operation of the class writes a filled slot. *)
Lemma step_keeps_slot (o : op) (w : world) (d : DataStore) :
  slot w = Some d -> slot (step default_api o w) = Some d.
Proof.
  intros Hs. destruct o as [|a|this ns autoLoad|this|this ns]; simpl.
  - rewrite (getDataStore_filled w d Hs). exact Hs.
  - exact Hs.
  - unfold get. destruct (negb (truthy (default_param autoLoad (VBool true))));
      simpl; exact Hs.
  - exact Hs.
  - exact Hs.
Qed.

Lemma run_keeps_slot (ops : list op) (w : world) (d : DataStore) :
  slot w = Some d -> slot (run default_api ops w) = Some d.
Proof.
  revert w. induction ops as [|o ops IH]; intros w Hs; simpl.
  - exact Hs.
  - apply IH. apply step_keeps_slot. exact Hs.
Qed.

(** C8: on its first invocation (the slot is empty) [getDataStore()]
    constructs exactly one [DataStore] and stores it in the slot; once the
    slot is filled no operation of the class changes it, so every later
    invocation, whatever ran in between, returns the identical instance and
    constructs nothing. *)
Theorem getDataStore_singleton :
  (forall w, slot w = None ->
     getDataStore default_api w
     = (mkDataStore (allocated w) "dataStore" default_api,
        mkWorld (sent w) (S (allocated w))
                (Some (mkDataStore (allocated w) "dataStore" default_api))))
  /\ (forall o w d, slot w = Some d -> slot (step default_api o w) = Some d)
  /\ (forall w ops,
        let first := getDataStore default_api w in
        let later := run default_api ops (snd first) in
        getDataStore default_api later = (fst first, later)).
Proof.
  split; [|split].
  - intros w Hs. unfold getDataStore. rewrite Hs. reflexivity.
  - exact step_keeps_slot.
  - intros w ops first later.
    apply getDataStore_filled. subst later.
    apply run_keeps_slot. subst first. apply getDataStore_fills_slot.
Qed.

End SingletonClaims.

Lemma getDataStore_singleton_witness :
  DataStoreM.getDataStore (api_answering Pending) world0
  = (mkDataStore 0 "dataStore" (api_answering Pending),
     mkWorld [] 1 (Some (mkDataStore 0 "dataStore" (api_answering Pending))))
  /\ slot (step (api_answering Pending)
              (Op_new (api_answering (Rejected not_found)))
              (mkWorld [] 1
                 (Some (mkDataStore 0 "dataStore" (api_answering Pending)))))
     = Some (mkDataStore 0 "dataStore" (api_answering Pending)).
Proof.
  split.
  - apply (proj1 (getDataStore_singleton (api_answering Pending)) world0).
    reflexivity.
  - apply (proj1 (proj2 (getDataStore_singleton (api_answering Pending)))).
    reflexivity.
Defined.

(** * Properties of the filter builder *)

Section FilterClaims.

Import FilterM.

Context {R : Type}.

Implicit Types (h : heap R) (f : Filter) (c : Filters R).

Lemma checkProvided_some (s what : string) h :
  s <> EmptyString -> checkProvided (R:=R) (Some s) what h = (inr s, h).
Proof.
  intros Hs. unfold checkProvided.
  destruct (String.eqb s EmptyString) eqn:E; [|reflexivity].
  apply String.eqb_eq in E. contradiction.
Qed.

Lemma checkProvided_missing (what : string) h :
  checkProvided (R:=R) None what h
  = (inl (ValidationError (what +:+ " should be provided")), h)
  /\ checkProvided (R:=R) (Some EmptyString) what h
  = (inl (ValidationError (what +:+ " should be provided")), h).
Proof. split; reflexivity. Qed.

(** [add] then [getReturn] on a collection that is in the heap. *)
Lemma add_then_getReturn (k self : nat) c h :
  filters_objs h !! k = Some c ->
  and_next (add k self) (fun _ => getReturn k) h
  = (inr (return_value c),
     mkHeap (filter_objs h)
       (<[k := mkFilters
                 (if bool_decide (self ∈ members c)
                  then members c else members c ++ [self])
                 (add_calls c ++ [self])
                 (S (getReturn_calls c))
                 (return_value c)]> (filters_objs h))).
Proof.
  intros Hc.
  pose proof (lookup_lt_Some _ _ _ Hc) as Hlt.
  unfold and_next, add, getReturn, and_next, read_filters, write_filters, pure.
  simpl. rewrite Hc. simpl.
  rewrite list_lookup_insert_eq by exact Hlt. simpl.
  rewrite list_insert_insert_eq. reflexivity.
Qed.

(** What a comparator method does to a well-formed heap. *)
Lemma comparator_method_run (token : string) (self : nat) (v : string) f c h :
  filter_objs h !! self = Some f ->
  filters_objs h !! filters f = Some c ->
  v <> EmptyString ->
  comparator_method token self (Some v) h
  = (inr (return_value c),
     mkHeap
       (<[self := mkFilter (filters f) (propertyName f) token (Some v)]>
          (filter_objs h))
       (<[filters f := mkFilters
                 (if bool_decide (self ∈ members c)
                  then members c else members c ++ [self])
                 (add_calls c ++ [self])
                 (S (getReturn_calls c))
                 (return_value c)]> (filters_objs h))).
Proof.
  intros Hf Hc Hv. unfold comparator_method.
  unfold and_next at 1. rewrite (checkProvided_some v _ h Hv).
  unfold and_next at 1. unfold read_filter. rewrite Hf.
  unfold and_next at 1. unfold write_filter.
  rewrite add_then_getReturn with (c := c) by exact Hc.
  reflexivity.
Qed.

End FilterClaims.

Section FilterTheorems.

Import FilterM.

Context {R : Type}.

Implicit Types (h : heap R) (f : Filter) (c : Filters R).

(** C4: for a non-empty [v], a comparator method ([equals] with its token
    ["eq"], and likewise [like] and [ilike]) sets the filter's comparator to
    the method's token and its filterValue to [v], makes exactly one
    [add(filter)] call on the owning collection with the filter itself, and
    returns what the collection's [getReturn] yields; with an empty or
    undefined argument it fails with the ValidationError "filterValue should
    be provided" and the heap is as before: nothing is set, nothing is
    registered. *)
Theorem comparator_method_commits (token : string) (self : nat) (v : string)
    f c h :
  filter_objs h !! self = Some f ->
  filters_objs h !! filters f = Some c ->
  v <> EmptyString ->
  (exists h' f' c',
      comparator_method token self (Some v) h = (inr (return_value c), h')
      /\ filter_objs h' !! self = Some f'
      /\ comparator f' = token
      /\ filterValue f' = Some v
      /\ propertyName f' = propertyName f
      /\ filters f' = filters f
      /\ filters_objs h' !! filters f = Some c'
      /\ add_calls c' = add_calls c ++ [self]
      /\ getReturn_calls c' = S (getReturn_calls c)
      /\ self ∈ members c'
      /\ (forall k, k <> filters f ->
            filters_objs h' !! k = filters_objs h !! k))
  /\ equals self (Some v) h = comparator_method "eq" self (Some v) h
  /\ like self (Some v) h = comparator_method "like" self (Some v) h
  /\ ilike self (Some v) h = comparator_method "ilike" self (Some v) h
  /\ comparator_method token self None h
     = (inl (ValidationError "filterValue should be provided"), h)
  /\ comparator_method token self (Some EmptyString) h
     = (inl (ValidationError "filterValue should be provided"), h).
Proof.
  intros Hf Hc Hv.
  split; [|repeat split].
  rewrite (comparator_method_run token self v f c h Hf Hc Hv).
  eexists _, _, _. split; [reflexivity|]. simpl.
  split; [apply list_lookup_insert_eq; eapply lookup_lt_Some; exact Hf|].
  repeat (split; [reflexivity|]).
  split; [apply list_lookup_insert_eq; eapply lookup_lt_Some; exact Hc|].
  repeat (split; [reflexivity|]).
  split.
  - simpl. case_bool_decide as Hin; [exact Hin|].
    apply elem_of_app. right. apply list_elem_of_singleton. reflexivity.
  - intros k Hk. apply list_lookup_insert_ne. congruence.
Qed.

(** C5: for a non-empty [p], [on(p)] sets the filter's propertyName to [p],
    leaves its other fields alone and returns the same filter; with an empty
    or undefined argument it fails with the ValidationError "Property name
    to filter on should be provided" and the heap, the propertyName with it,
    is as before. *)
Theorem on_sets_propertyName (self : nat) (p : string) f h :
  filter_objs h !! self = Some f ->
  p <> EmptyString ->
  on self (Some p) h
  = (inr self,
     mkHeap (<[self := mkFilter (filters f) p (comparator f) (filterValue f)]>
               (filter_objs h))
            (filters_objs h))
  /\ (propertyName <$> filter_objs (snd (on self (Some p) h)) !! self) = Some p
  /\ on self None h
     = (inl (ValidationError "Property name to filter on should be provided"),
        h)
  /\ on self (Some EmptyString) h
     = (inl (ValidationError "Property name to filter on should be provided"),
        h).
Proof.
  intros Hf Hp.
  assert (Hrun : on self (Some p) h
    = (inr self,
       mkHeap (<[self := mkFilter (filters f) p (comparator f) (filterValue f)]>
                 (filter_objs h))
              (filters_objs h))).
  { unfold on. unfold and_next at 1. rewrite (checkProvided_some p _ h Hp).
    unfold and_next at 1. unfold read_filter. rewrite Hf. reflexivity. }
  split; [exact Hrun|]. split; [|split; reflexivity].
  rewrite Hrun. simpl.
  rewrite list_lookup_insert_eq by (eapply lookup_lt_Some; exact Hf).
  reflexivity.
Qed.

(** C7: once a comparator method has run, [getQueryParamFormat()] returns
    propertyName, comparator token and filterValue of the filter joined by
    colons, and changes nothing; in particular
    [filter.on('code').equals('Partner_343')] followed by
    [filter.getQueryParamFormat()] gives ['code:eq:Partner_343']. *)
Theorem getQueryParamFormat_after_comparator (token : string) (self : nat)
    (v : string) f c h :
  filter_objs h !! self = Some f ->
  filters_objs h !! filters f = Some c ->
  v <> EmptyString ->
  getQueryParamFormat self (snd (comparator_method token self (Some v) h))
  = (inr (propertyName f +:+ ":" +:+ token +:+ ":" +:+ v),
     snd (comparator_method token self (Some v) h))
  /\ (forall h1 f1 v1,
        filter_objs h1 !! self = Some f1 ->
        filterValue f1 = Some v1 ->
        getQueryParamFormat self h1
        = (inr (propertyName f1 +:+ ":" +:+ comparator f1 +:+ ":" +:+ v1), h1))
  /\ (forall r : R,
        fst (code_equals_partner r (mkHeap [] [])) = inr "code:eq:Partner_343").
Proof.
  intros Hf Hc Hv.
  assert (Hcur : forall h1 f1 v1,
        filter_objs h1 !! self = Some f1 ->
        filterValue f1 = Some v1 ->
        getQueryParamFormat self h1
        = (inr (propertyName f1 +:+ ":" +:+ comparator f1 +:+ ":" +:+ v1), h1)).
  { intros h1 f1 v1 H1 Hv1. unfold getQueryParamFormat, and_next, read_filter.
    rewrite H1, Hv1. reflexivity. }
  split; [|split; [exact Hcur|reflexivity]].
  rewrite (comparator_method_run token self v f c h Hf Hc Hv). simpl.
  apply (Hcur _ (mkFilter (filters f) (propertyName f) token (Some v)) v);
    [|reflexivity].
  simpl. apply list_lookup_insert_eq. eapply lookup_lt_Some. exact Hf.
Qed.

End FilterTheorems.

Lemma comparator_method_commits_witness :
  fst (FilterM.equals 0 (Some "ANC") (FilterM.heap_of_test "modelDefinition"))
    = inr "modelDefinition"
  /\ FilterM.comparator_method "eq" 0 None
       (FilterM.heap_of_test "modelDefinition")
     = (inl (FilterM.ValidationError "filterValue should be provided"),
        FilterM.heap_of_test "modelDefinition").
Proof.
  destruct (comparator_method_commits "eq" 0 "ANC"
              (FilterM.mkFilter 0 "name" "like" None)
              (FilterM.mkFilters [] [] 0 "modelDefinition")
              (FilterM.heap_of_test "modelDefinition")
              eq_refl eq_refl ltac:(discriminate))
    as [(h' & f' & c' & Hrun & _) (Heq & _ & _ & Hnone & _)].
  split; [|exact Hnone].
  rewrite Heq, Hrun. reflexivity.
Defined.

Lemma on_sets_propertyName_witness :
  FilterM.on 0 (Some "year") (FilterM.heap_of_test tt)
  = (inr 0%nat,
     FilterM.mkHeap [FilterM.mkFilter 0 "year" "like" None]
                    [FilterM.mkFilters [] [] 0 tt]).
Proof.
  exact (proj1 (on_sets_propertyName 0 "year"
                  (FilterM.mkFilter 0 "name" "like" None)
                  (FilterM.heap_of_test tt)
                  eq_refl ltac:(discriminate))).
Defined.

Lemma getQueryParamFormat_after_comparator_witness :
  fst (FilterM.getQueryParamFormat 0
         (snd (FilterM.comparator_method "eq" 0 (Some "2013")
                 (FilterM.heap_of_test tt))))
  = inr "name:eq:2013".
Proof.
  rewrite (proj1 (getQueryParamFormat_after_comparator "eq" 0 "2013"
                    (FilterM.mkFilter 0 "name" "like" None)
                    (FilterM.mkFilters [] [] 0 tt)
                    (FilterM.heap_of_test tt)
                    eq_refl eq_refl ltac:(discriminate))).
  reflexivity.
Defined.

(** * Further properties of the store clients *)

Section GetArguments.

Import DataStoreM.


Lemma get_by_loads (this : DataStore) (ns : string) (autoLoad : value)
    (w : world) :
  get this ns autoLoad w
  = if loads autoLoad then get this ns (VBool true) w
    else get this ns (VBool false) w.
Proof.
  unfold get, loads.
  destruct (truthy (default_param autoLoad (VBool true))); reflexivity.
Qed.



(** X2: whenever [get] resolves, for any second argument and any transport,
    the accessor is one for the namespace asked for; known keys are a
    sequence and are the very response of the read; unknown keys mean that
    the read was skipped or ended in a rejection carrying
    [httpStatusCode === 404]. *)
Theorem get_resolves_for_namespace (this : DataStore) (ns : string)
    (autoLoad : value) (w : world) (a : DataStoreNamespace) :
  fst (get this ns autoLoad w) = Fulfilled a ->
  namespace a = ns
  /\ match keys a with
     | Some v =>
         loads autoLoad = true /\ isArray v = true
         /\ respond (api this) (sent w) (namespace_request this ns)
            = Fulfilled v
     | None =>
         loads autoLoad = false
         \/ exists e,
              respond (api this) (sent w) (namespace_request this ns)
              = Rejected e
              /\ get_prop e "httpStatusCode" = Return (VNum 404)
     end.
Proof.
  rewrite get_by_loads. destruct (loads autoLoad) eqn:El.
  - rewrite get_autoLoad_true. simpl fst.
    destruct (respond (api this) (sent w) (namespace_request this ns))
      as [v|e|] eqn:Hp; simpl.
    + destruct (isArray v) eqn:Ha.
      * rewrite get_onFulfilled_array by assumption. simpl.
        intros H. inversion H; subst a. simpl. auto.
      * rewrite get_onFulfilled_other by assumption. simpl. discriminate.
    + unfold get_onRejected.
      destruct (get_prop e "httpStatusCode") as [code|t] eqn:Hc; simpl;
        [|discriminate].
      destruct (strict_equals_num code 404) eqn:E4; simpl; [|discriminate].
      apply strict_equals_num_spec in E4. subst code.
      intros H. inversion H; subst a. simpl. split; [reflexivity|].
      right. exists e. auto.
    + discriminate.
  - simpl. intros H. inversion H; subst a. simpl. auto.
Qed.

Lemma get_resolves_for_namespace_witness :
  namespace (new_DataStoreNamespace "ns" (Some (VArray [VStr "k"]))) = "ns"
  /\ isArray (VArray [VStr "k"]) = true.
Proof.
  destruct (get_resolves_for_namespace
              (store_answering (Fulfilled (VArray [VStr "k"]))) "ns"
              VUndefined world0
              (new_DataStoreNamespace "ns" (Some (VArray [VStr "k"])))
              eq_refl) as (H1 & _ & H2 & _).
  split; assumption.
Defined.

(** X3: a read that is made settles the promise exactly when the transport
    settles: [get(ns, true)] and [getAll()] stay pending if and only if the
    transport's answer is pending. *)
Theorem pending_iff_transport_pending (this : DataStore) (ns : string)
    (w : world) :
  (fst (get this ns (VBool true) w) = Pending
   <-> respond (api this) (sent w) (namespace_request this ns) = Pending)
  /\ (fst (getAll this w) = Pending
   <-> respond (api this) (sent w) (GET (endPoint this)) = Pending).
Proof.
  split.
  - rewrite get_autoLoad_true. cbn [fst].
    destruct (respond (api this) (sent w) (namespace_request this ns))
      as [v|e|]; cbn [then_ catch_]; [| |tauto].
    + destruct (get_onFulfilled ns v); cbn [new_Promise catch_].
      * split; discriminate.
      * destruct (get_onRejected ns e); cbn [new_Promise]; split; discriminate.
    + destruct (get_onRejected ns e); cbn [new_Promise]; split; discriminate.
  - unfold getAll, bind, api_get, call, ret. cbn [fst].
    destruct (respond (api this) (sent w) (GET (endPoint this))) as [v|e|];
      cbn [then_]; [| |tauto].
    + destruct (getAll_onFulfilled v); cbn [new_Promise]; split; discriminate.
    + split; discriminate.
Qed.

End GetArguments.

Section DeleteAndPaths.

(** X4: [delete(namespace)], of [DataStore] and of [BaseStore] alike, sends
    one DELETE of [endPoint/namespace] and returns the transport's promise as
    it is; a rejection carrying [httpStatusCode === 404], which [get]
    recovers from, stays a rejection here. *)
Theorem delete_passes_through (d : DataStore) (b : BaseStore) (ns : string)
    (w : world) :
  DataStoreM.delete d ns w
  = (respond (api d) (sent w) (DELETE (endPoint d +:+ "/" +:+ ns)),
     mkWorld (sent w ++ [DELETE (endPoint d +:+ "/" +:+ ns)])
             (allocated w) (slot w))
  /\ BaseStoreM.delete b ns w
  = (respond (base_api b) (sent w) (DELETE (base_endPoint b +:+ "/" +:+ ns)),
     mkWorld (sent w ++ [DELETE (base_endPoint b +:+ "/" +:+ ns)])
             (allocated w) (slot w))
  /\ (forall e,
        get_prop e "httpStatusCode" = Return (VNum 404) ->
        respond (api d) (sent w) (delete_request d ns) = Rejected e ->
        respond (api d) (sent w) (namespace_request d ns) = Rejected e ->
        fst (DataStoreM.delete d ns w) = Rejected e
        /\ fst (DataStoreM.get d ns (VBool true) w)
           = Fulfilled (new_DataStoreNamespace ns None)).
Proof.
  split; [reflexivity|]. split; [reflexivity|].
  intros e H404 Hd Hg. split.
  - exact Hd.
  - rewrite get_autoLoad_true, Hg. cbn [fst catch_ then_].
    rewrite (get_onRejected_404 ns e H404). reflexivity.
Qed.

Lemma delete_passes_through_witness :
  fst (DataStoreM.delete (store_answering (Rejected not_found)) "ns" world0)
    = Rejected not_found
  /\ fst (DataStoreM.get (store_answering (Rejected not_found)) "ns"
            (VBool true) world0)
    = Fulfilled (new_DataStoreNamespace "ns" None).
Proof.
  exact (proj2 (proj2 (delete_passes_through
                         (store_answering (Rejected not_found))
                         (base_store_answering Pending) "ns" world0))
           not_found eq_refl eq_refl eq_refl).
Defined.

(** X5: on the same end point and transport, [getAll] and [delete] of
    [DataStore] do exactly what those of [BaseStore] do, result and requests
    alike. *)
Theorem DataStore_agrees_with_BaseStore (d : DataStore) (b : BaseStore)
    (ns : string) (w : world) :
  base_endPoint b = endPoint d ->
  base_api b = api d ->
  DataStoreM.getAll d w = BaseStoreM.getAll b w
  /\ DataStoreM.delete d ns w = BaseStoreM.delete b ns w.
Proof.
  intros He Ha.
  unfold DataStoreM.getAll, BaseStoreM.getAll, DataStoreM.delete,
    BaseStoreM.delete.
  rewrite He, Ha. split; reflexivity.
Qed.

Lemma DataStore_agrees_with_BaseStore_witness :
  DataStoreM.getAll (store_answering (Fulfilled VNull)) world0
  = BaseStoreM.getAll (base_store_answering (Fulfilled VNull)) world0
  /\ DataStoreM.delete (store_answering (Fulfilled VNull)) "ns" world0
  = BaseStoreM.delete (base_store_answering (Fulfilled VNull)) "ns" world0.
Proof.
  exact (DataStore_agrees_with_BaseStore
           (store_answering (Fulfilled VNull))
           (base_store_answering (Fulfilled VNull)) "ns" world0
           eq_refl eq_refl).
Defined.

(** X6: [get(ns, true)] reads the path [endPoint/ns] and [delete(ns)]
    deletes that same path; on one store, two namespaces whose reads leave
    the same requests behind are the same namespace. *)
Theorem namespace_path (this : DataStore) (ns ns' : string) (w : world) :
  sent (snd (DataStoreM.get this ns (VBool true) w))
  = sent w ++ [GET (endPoint this +:+ "/" +:+ ns)]
  /\ sent (snd (DataStoreM.delete this ns w))
  = sent w ++ [DELETE (endPoint this +:+ "/" +:+ ns)]
  /\ (sent (snd (DataStoreM.get this ns (VBool true) w))
      = sent (snd (DataStoreM.get this ns' (VBool true) w)) ->
      ns = ns').
Proof.
  split; [reflexivity|]. split; [reflexivity|].
  rewrite !get_autoLoad_true. cbn [snd sent].
  intros H. apply app_inv_head in H. inversion H as [Hp].
  apply (inj (String.app (endPoint this))) in Hp.
  apply (inj (String.app "/")) in Hp. exact Hp.
Qed.

Lemma namespace_path_witness :
  sent (snd (DataStoreM.get (store_answering Pending) "a/b" (VBool true)
               world0))
  = [GET "dataStore/a/b"].
Proof.
  exact (proj1 (namespace_path (store_answering Pending) "a/b" "a/b" world0)).
Defined.

(** X7: a store made by a constructor talks to the transport it was given,
    under the end point [dataStore] unless a [BaseStore] was given another
    one; constructing sends nothing and leaves the singleton slot alone, and
    two constructions yield two different objects. *)
Theorem constructed_stores (a a' : Api) (ep : option string) (w : world) :
  let d := fst (DataStoreM.new_DataStore a w) in
  let w1 := snd (DataStoreM.new_DataStore a w) in
  let d' := fst (DataStoreM.new_DataStore a' w1) in
  let b := fst (BaseStoreM.new_BaseStore a ep w) in
  let w2 := snd (BaseStoreM.new_BaseStore a ep w) in
  oid d <> oid d'
  /\ sent w1 = sent w /\ slot w1 = slot w
  /\ sent w2 = sent w /\ slot w2 = slot w
  /\ DataStoreM.getAll d w1
     = (then_ (respond a (sent w) (GET "dataStore"))
              DataStoreM.getAll_onFulfilled,
        mkWorld (sent w ++ [GET "dataStore"]) (S (allocated w)) (slot w))
  /\ fst (BaseStoreM.getAll b w2)
     = then_ (respond a (sent w)
                (GET (match ep with Some s => s | None => "dataStore" end)))
             BaseStoreM.getAll_onFulfilled.
Proof.
  cbn. repeat split; try reflexivity.
  apply Nat.neq_succ_diag_r.
Qed.

End DeleteAndPaths.

Section Programs.

Import DataStoreM.

Variable default_api : Api.

Lemma step_sent (o : op) (w : world) :
  sent (step default_api o w) = sent w ++ requests_of o.
Proof.
  destruct o as [|a|this ns autoLoad|this|this ns]; cbn [step requests_of].
  - unfold getDataStore. destruct (slot w); cbn; rewrite app_nil_r; reflexivity.
  - cbn. rewrite app_nil_r. reflexivity.
  - rewrite get_by_loads. destruct (loads autoLoad).
    + rewrite get_autoLoad_true. reflexivity.
    + cbn. rewrite app_nil_r. reflexivity.
  - reflexivity.
  - reflexivity.
Qed.

(** X8: the requests a program leaves behind are those that were there
    before, followed by the requests of its operations in order: nothing for
    [getDataStore], a constructor or a [get] that skips the read, one GET for
    a reading [get] and for [getAll], one DELETE for [delete].  What the
    transport answers changes nothing of it: nothing is retried or followed
    up. *)
Theorem run_sent (ops : list op) (w : world) :
  sent (run default_api ops w) = sent w ++ List.flat_map requests_of ops.
Proof.
  revert w. induction ops as [|o ops IH]; intros w; cbn [run fold_left flat_map].
  - rewrite app_nil_r. reflexivity.
  - fold (run default_api ops (step default_api o w)).
    rewrite IH, step_sent, <- app_assoc. reflexivity.
Qed.

(** X9: a DELETE that a program has sent was asked for by one of its
    [delete] operations, for that store's end point and that namespace; no
    other operation deletes. *)
Theorem deletes_come_from_delete (ops : list op) (w : world) (path : string) :
  In (DELETE path) (sent (run default_api ops w)) ->
  In (DELETE path) (sent w)
  \/ exists this ns,
       In (Op_delete this ns) ops /\ path = endPoint this +:+ "/" +:+ ns.
Proof.
  rewrite run_sent. intros H. apply in_app_or in H as [H|H]; [left; exact H|].
  right. apply in_flat_map in H as (o & Ho & Hr).
  destruct o as [|a|this ns autoLoad|this|this ns]; cbn [requests_of] in Hr.
  - destruct Hr.
  - destruct Hr.
  - destruct (loads autoLoad); [|destruct Hr].
    destruct Hr as [Hr|[]]. discriminate Hr.
  - destruct Hr as [Hr|[]]. discriminate Hr.
  - destruct Hr as [Hr|[]]. inversion Hr. eauto.
Qed.

Lemma step_allocated_filled (o : op) (w : world) (d : DataStore) :
  slot w = Some d ->
  allocated (step default_api o w)
  = (allocated w + (if is_new o then 1 else 0))%nat.
Proof.
  intros Hs. destruct o as [|a|this ns autoLoad|this|this ns];
    cbn [step is_new].
  - rewrite (getDataStore_filled default_api w d Hs). cbn. lia.
  - cbn. lia.
  - rewrite get_by_loads. destruct (loads autoLoad); cbn; lia.
  - cbn. lia.
  - cbn. lia.
Qed.

Lemma run_allocated_filled (ops : list op) (w : world) (d : DataStore) :
  slot w = Some d ->
  allocated (run default_api ops w)
  = (allocated w + length (List.filter is_new ops))%nat.
Proof.
  revert w. induction ops as [|o ops IH]; intros w Hs;
    cbn [run fold_left List.filter].
  - cbn. lia.
  - fold (run default_api ops (step default_api o w)).
    rewrite (IH _ (step_keeps_slot default_api o w d Hs)).
    rewrite (step_allocated_filled o w d Hs).
    destruct (is_new o); cbn [length]; lia.
Qed.

(** X10: over a whole program, the objects constructed are one per explicit
    [new DataStore(...)] and, for all the calls of [getDataStore] together,
    one if the slot was empty at the start and [getDataStore] is called at
    all, none otherwise; [get], [getAll] and [delete] construct no store. *)
Theorem run_allocated (ops : list op) (w : world) :
  allocated (run default_api ops w)
  = (allocated w + length (List.filter is_new ops)
     + match slot w with
       | Some _ => 0
       | None => if existsb is_getDataStore ops then 1 else 0
       end)%nat.
Proof.
  destruct (slot w) as [d|] eqn:Hs.
  - rewrite (run_allocated_filled ops w d Hs). lia.
  - revert w Hs. induction ops as [|o ops IH]; intros w Hs;
      cbn [run fold_left List.filter existsb].
    + cbn. lia.
    + fold (run default_api ops (step default_api o w)).
      destruct o as [|a|this ns autoLoad|this|this ns];
        cbn [is_new is_getDataStore orb].
      * cbn [step].
        rewrite (run_allocated_filled ops _ _
                   (getDataStore_fills_slot default_api w)).
        unfold getDataStore. rewrite Hs. cbn. lia.
      * rewrite IH by exact Hs. cbn. lia.
      * rewrite IH.
        -- cbn [step]. rewrite get_by_loads.
           destruct (loads autoLoad); cbn; lia.
        -- cbn [step]. rewrite get_by_loads.
           destruct (loads autoLoad); exact Hs.
      * rewrite IH by exact Hs. cbn. lia.
      * rewrite IH by exact Hs. cbn. lia.
Qed.

Lemma step_singleton_ok (o : op) (w : world) :
  singleton_ok default_api w -> singleton_ok default_api (step default_api o w).
Proof.
  unfold singleton_ok.
  destruct o as [|a|this ns autoLoad|this|this ns]; cbn [step].
  - unfold getDataStore. destruct (slot w) as [d|] eqn:Hs; cbn.
    + rewrite Hs. tauto.
    + intros _. repeat split. lia.
  - cbn. destruct (slot w) as [d|]; [|tauto].
    intros (He & Ha & Hlt). repeat split; try assumption. lia.
  - rewrite get_by_loads. destruct (loads autoLoad); cbn; tauto.
  - cbn. tauto.
  - cbn. tauto.
Qed.

Lemma run_singleton_ok (ops : list op) (w : world) :
  singleton_ok default_api w -> singleton_ok default_api (run default_api ops w).
Proof.
  revert w. induction ops as [|o ops IH]; intros w Hok; cbn [run fold_left].
  - exact Hok.
  - apply IH. apply step_singleton_ok. exact Hok.
Qed.

(** X11: if the slot starts empty, or holds an object [getDataStore] made,
    then after any program [getDataStore()] returns a store on the default
    transport with end point [dataStore], and a [new DataStore(...)] made
    afterwards is never that shared instance. *)
Theorem singleton_is_default_store (ops : list op) (w : world) (a : Api) :
  singleton_ok default_api w ->
  let shared := getDataStore default_api (run default_api ops w) in
  endPoint (fst shared) = "dataStore"
  /\ api (fst shared) = default_api
  /\ fst (new_DataStore a (snd shared)) <> fst shared.
Proof.
  intros Hok shared.
  pose proof (step_singleton_ok Op_getDataStore _
                (run_singleton_ok ops w Hok)) as Hok'.
  pose proof (getDataStore_fills_slot default_api (run default_api ops w))
    as Hslot.
  cbn [step] in Hok'. fold shared in Hok', Hslot.
  unfold singleton_ok in Hok'. rewrite Hslot in Hok'.
  destruct Hok' as (He & Ha & Hlt).
  repeat split; try assumption.
  intros Heq. rewrite <- Heq in Hlt. cbn in Hlt. lia.
Qed.

End Programs.

Lemma deletes_come_from_delete_witness :
  In (DELETE "dataStore/ns")
     (sent (run (api_answering Pending)
                [Op_getAll (store_answering Pending);
                 Op_delete (store_answering Pending) "ns"]
                world0))
  /\ (In (DELETE "dataStore/ns") (sent world0)
      \/ In (Op_delete (store_answering Pending) "ns")
            [Op_getAll (store_answering Pending);
             Op_delete (store_answering Pending) "ns"]).
Proof.
  assert (Hin : In (DELETE "dataStore/ns")
     (sent (run (api_answering Pending)
                [Op_getAll (store_answering Pending);
                 Op_delete (store_answering Pending) "ns"]
                world0))) by (right; left; reflexivity).
  split; [exact Hin|].
  destruct (deletes_come_from_delete (api_answering Pending)
              [Op_getAll (store_answering Pending);
               Op_delete (store_answering Pending) "ns"]
              world0 "dataStore/ns" Hin) as [H|(this & ns & H & _)].
  - left. exact H.
  - right. right. left. reflexivity.
Defined.

Lemma singleton_is_default_store_witness :
  endPoint
    (fst (DataStoreM.getDataStore (api_answering Pending)
            (run (api_answering Pending)
                 [Op_new (api_answering (Rejected not_found)); Op_getDataStore]
                 world0)))
  = "dataStore".
Proof.
  exact (proj1 (singleton_is_default_store (api_answering Pending)
                  [Op_new (api_answering (Rejected not_found)); Op_getDataStore]
                  world0 (api_answering Pending) I)).
Defined.

Section Outcomes.

Import DataStoreM.

Lemma get_prop_throws (e t : value) (name : string) :
  get_prop e name = Throw t -> (e = VUndefined \/ e = VNull) /\ t = VTypeError.
Proof.
  destruct e; cbn; intros H; try discriminate; inversion H; auto.
Qed.

(** X12: whatever [getAll()] resolves with is a sequence and is the very
    response of the transport; whatever it rejects with is the transport's
    own reason, or the error "No namespaces exist." after a fulfilled
    response that is not a sequence. *)
Theorem getAll_settled (this : DataStore) (w : world) :
  (forall v, fst (getAll this w) = Fulfilled v ->
     isArray v = true
     /\ respond (api this) (sent w) (GET (endPoint this)) = Fulfilled v)
  /\ (forall r, fst (getAll this w) = Rejected r ->
     respond (api this) (sent w) (GET (endPoint this)) = Rejected r
     \/ (r = VError "No namespaces exist."
         /\ exists v,
              respond (api this) (sent w) (GET (endPoint this)) = Fulfilled v
              /\ isArray v = false)).
Proof.
  unfold getAll, bind, api_get, call, ret. cbn [fst].
  destruct (respond (api this) (sent w) (GET (endPoint this))) as [v|e|];
    cbn [then_].
  - destruct (isArray v) eqn:Ha.
    + rewrite getAll_onFulfilled_array by assumption. cbn. split.
      * intros v' H. inversion H; subst. auto.
      * discriminate.
    + rewrite getAll_onFulfilled_other by assumption. cbn. split.
      * discriminate.
      * intros r H. inversion H; subst. right. eauto.
  - split; [discriminate|]. intros r H. left. exact H.
  - split; discriminate.
Qed.

Lemma getAll_settled_witness :
  isArray (VArray [VStr "a"]) = true
  /\ (respond (api (store_answering (Fulfilled (VNum 7)))) (sent world0)
        (GET (endPoint (store_answering (Fulfilled (VNum 7)))))
      = Rejected (VError "No namespaces exist.")
      \/ isArray (VNum 7) = false).
Proof.
  split.
  - exact (proj1 (proj1 (getAll_settled
                           (store_answering (Fulfilled (VArray [VStr "a"])))
                           world0)
                    (VArray [VStr "a"]) eq_refl)).
  - destruct (proj2 (getAll_settled (store_answering (Fulfilled (VNum 7)))
                       world0)
                (VError "No namespaces exist.") eq_refl) as [H|_].
    + left. exact H.
    + right. reflexivity.
Defined.

(** X13: whatever [get] rejects with, for any second argument, the read was
    made and the reason is one of three: the error "The requested namespace
    has no keys or does not exist." after a fulfilled response that is not a
    sequence; the transport's own reason, whose [httpStatusCode] is not 404;
    or a [TypeError], when the transport's reason was [undefined] or
    [null]. *)
Theorem get_rejection_reasons (this : DataStore) (ns : string)
    (autoLoad : value) (w : world) (r : value) :
  fst (get this ns autoLoad w) = Rejected r ->
  loads autoLoad = true
  /\ ((r = VError "The requested namespace has no keys or does not exist."
       /\ exists v,
            respond (api this) (sent w) (namespace_request this ns)
            = Fulfilled v
            /\ isArray v = false)
      \/ (respond (api this) (sent w) (namespace_request this ns) = Rejected r
          /\ exists code,
               get_prop r "httpStatusCode" = Return code /\ code <> VNum 404)
      \/ (r = VTypeError
          /\ exists e,
               respond (api this) (sent w) (namespace_request this ns)
               = Rejected e
               /\ (e = VUndefined \/ e = VNull))).
Proof.
  rewrite get_by_loads. destruct (loads autoLoad); [|discriminate].
  rewrite get_autoLoad_true. cbn [fst]. intros H. split; [reflexivity|].
  destruct (respond (api this) (sent w) (namespace_request this ns))
    as [v|e|]; cbn [then_ catch_] in H.
  - destruct (isArray v) eqn:Ha.
    + rewrite get_onFulfilled_array in H by assumption. discriminate H.
    + rewrite get_onFulfilled_other in H by assumption.
      cbn [new_Promise catch_] in H. rewrite get_onRejected_no_keys in H.
      inversion H; subst r. left. split; [reflexivity|]. eauto.
  - unfold get_onRejected in H.
    destruct (get_prop e "httpStatusCode") as [code|t] eqn:Hc;
      cbn [bind_completion] in H.
    + destruct (strict_equals_num code 404) eqn:E4; [discriminate H|].
      inversion H; subst r. right. left. split; [reflexivity|].
      exists code. split; [exact Hc|]. intros ->. cbn in E4. discriminate.
    + inversion H; subst r.
      apply get_prop_throws in Hc as [He ->].
      right. right. split; [reflexivity|]. eauto.
  - discriminate H.
Qed.

Lemma get_rejection_reasons_witness :
  loads VUndefined = true.
Proof.
  exact (proj1 (get_rejection_reasons
                  (store_answering (Rejected server_error)) "ns" VUndefined
                  world0 server_error eq_refl)).
Defined.

End Outcomes.
